(** * menbee-cdk: the deployment topology and its health-check policy

    The repository declares one cloud topology in two stack files (an HTTPS
    variant with Secrets Manager wiring, src/unnamed/part_000, and an
    HTTP-only variant, src/unnamed/part_001) and a CLI entry point,
    src/bin/cdk.ts, that instantiates it.

    A stack constructor is embedded as a program of a small state monad
    over the construct tree: every [new X(this, id, props)] registers a
    construct under its id and yields a reference to it, and the mutating
    calls ([addIngressRule], [addListener], [addTargets], [addContainer])
    update the construct they are invoked on, so a construct that was
    handed to another one and changed afterwards is seen changed.  The
    calls of the SDK record their arguments; two things the SDK does on
    its own to the security groups are part of the model, because the
    ingress rules of the stack depend on them: a listener opens the load
    balancer's security group on its port unless [open] is [false], and a
    security group keeps one rule for a peer and a port range.  The image
    deployment, the IAM role with its policy statements and the capacity
    provider are left out, and so are the properties that only the
    provisioning engine interprets (instance type, machine image, placement
    strategy): no property below reads them. *)

From stdpp Require Import base option list gmap strings pretty.
From Stdlib Require Import ZArith Lia Ascii.

Local Open Scope Z_scope.
Local Open Scope string_scope.

(** ** The SDK values the source passes around *)

Module Cdk.

(** [Duration.seconds(n)] and [Duration.minutes(n)]. *)
Record Duration : Type := { toSeconds : Z }.

Definition seconds (n : Z) : Duration := {| toSeconds := n |}.
Definition minutes (n : Z) : Duration := {| toSeconds := 60 * n |}.

Inductive RemovalPolicy : Type := RETAIN | DESTROY.

(** [ec2.Peer]: every IPv4 address, or the members of a security group
    (referred to by construct id). *)
Inductive Peer : Type :=
| anyIpv4
| securityGroupPeer (sg : string).

(** [ec2.Port.tcp(p)] and [ec2.Port.tcpRange(a, b)]. *)
Record Port : Type := { fromPort : Z; toPort : Z }.

Definition tcp (p : Z) : Port := {| fromPort := p; toPort := p |}.
Definition tcpRange (a b : Z) : Port := {| fromPort := a; toPort := b |}.

Record IngressRule : Type :=
  { peer : Peer; connection : Port; description : string }.

Inductive ApplicationProtocol : Type := HTTP | HTTPS.

(** [elbv2.ListenerAction.redirect({protocol, port})]. *)
Record RedirectOptions : Type :=
  { redirectProtocol : string; redirectPort : string }.

(** The properties of [alb.addListener]; an absent property is [None]. *)
Record ListenerProps : Type :=
  { listenerPort : Z;
    listenerProtocol : option ApplicationProtocol;
    certificates : list string;
    listenerOpen : option bool;
    defaultAction : option RedirectOptions }.

(** The [healthCheck] block of a target group. *)
Record HealthCheck : Type :=
  { path : string;
    interval : Duration;
    timeout : Duration;
    healthyThresholdCount : Z;
    unhealthyThresholdCount : Z;
    healthCheckPort : string;
    healthCheckProtocol : ApplicationProtocol }.

(** The properties of [listener.addTargets]. *)
Record AddApplicationTargetsProps : Type :=
  { targetPort : Z;
    targetProtocol : ApplicationProtocol;
    targets : list string;
    healthCheck : HealthCheck;
    deregistrationDelay : Duration }.

Inductive NetworkMode : Type := BRIDGE | AWS_VPC | HOST | NONE.
Inductive Protocol : Type := TCP | UDP.

Record PortMapping : Type :=
  { containerPort : Z; hostPort : Z; protocol : Protocol }.

(** [secretsmanager.Secret.fromSecretNameV2(scope, id, name)]: a reference
    to a secret by name. *)
Record SecretReference : Type := { secretName : string }.

(** [ecs.Secret.fromSecretsManager(secret, field)]: a reference to one JSON
    field of a named secret. *)
Record Secret : Type := { secretOf : SecretReference; field : string }.

Definition fromSecretsManager (s : SecretReference) (f : string) : Secret :=
  {| secretOf := s; field := f |}.

(** [ecs.LogDrivers.awsLogs({streamPrefix, logGroup})]. *)
Record AwsLogDriverProps : Type := { streamPrefix : string; logGroup : string }.

(** The container-level [healthCheck] block. *)
Record ContainerHealthCheck : Type :=
  { command : list string;
    containerInterval : Duration;
    containerTimeout : Duration;
    retries : Z;
    startPeriod : Duration }.

(** The options of [taskDefinition.addContainer]. *)
Record ContainerDefinitionOptions : Type :=
  { containerName : string;
    image : string * string;
    logging : AwsLogDriverProps;
    memoryReservationMiB : Z;
    memoryLimitMiB : Z;
    cpu : Z;
    portMappings : list PortMapping;
    essential : bool;
    startTimeout : Duration;
    stopTimeout : Duration;
    environment : gmap string string;
    secrets : gmap string Secret;
    containerHealthCheck : ContainerHealthCheck }.

(** The properties of [new autoscaling.AutoScalingGroup]; [userData] holds
    the commands the constructor itself put into the [UserData] object. *)
Record AutoScalingGroupProps : Type :=
  { userData : list string;
    minCapacity : Z;
    maxCapacity : Z;
    desiredCapacity : Z;
    securityGroup : string }.

Record ApplicationLoadBalancerProps : Type :=
  { internetFacing : bool;
    loadBalancerName : string;
    albSecurityGroup : string }.

Record Ec2ServiceProps : Type :=
  { serviceName : string;
    serviceTaskDefinition : string;
    desiredCount : Z;
    enableExecuteCommand : bool }.

(** The value of an output: a string known at construction, or an attribute
    of a construct that the provisioning engine resolves. *)
Inductive OutputValue : Type :=
| text (s : string)
| loadBalancerDnsName (alb : string).

Record CfnOutputProps : Type :=
  { value : OutputValue; outputDescription : string }.

(** [StackProps.env]: both members may be undefined. *)
Record Environment : Type :=
  { account : option string; region : option string }.

(** A construct of the tree, with the state its methods change. *)
Inductive Construct : Type :=
| Repository (repositoryName : string) (removalPolicy : RemovalPolicy)
| Vpc (maxAzs : Z)
| Cluster (clusterName : string)
| LogGroup (logGroupName : string) (removalPolicy : RemovalPolicy)
| SecurityGroup (allowAllOutbound : bool) (ingress : list IngressRule)
| AutoScalingGroup (p : AutoScalingGroupProps)
| Certificate (certDomain : string)
| ApplicationLoadBalancer (p : ApplicationLoadBalancerProps)
| ApplicationListener (loadBalancer : string) (p : ListenerProps)
| SecretByName (s : SecretReference)
| Ec2TaskDefinition (family : string) (networkMode : NetworkMode)
    (containers : list (string * ContainerDefinitionOptions))
| Ec2Service (p : Ec2ServiceProps)
| ApplicationTargetGroup (listener : string) (p : AddApplicationTargetsProps)
| CfnOutput (p : CfnOutputProps).

End Cdk.

Import Cdk.

#[export] Instance Peer_eq_dec : EqDecision Peer.
Proof. solve_decision. Defined.

#[export] Instance Port_eq_dec : EqDecision Port.
Proof. solve_decision. Defined.

(** ** The stack under construction *)

(** [DockerImageDeploymentStackProps extends StackProps]. *)
Record DockerImageDeploymentStackProps : Type :=
  { domainName : string; env : Environment }.

Record Stack : Type :=
  { stackId : string;
    stackProps : DockerImageDeploymentStackProps;
    constructs : gmap string Construct }.

Definition Build (A : Type) : Type := Stack → A * Stack.

#[export] Instance Build_ret : MRet Build := λ A a s, (a, s).
#[export] Instance Build_bind : MBind Build :=
  λ A B k m s, let '(a, s') := m s in k a s'.

Definition update (f : gmap string Construct → gmap string Construct) : Build unit :=
  λ s, (tt, {| stackId := stackId s; stackProps := stackProps s;
               constructs := f (constructs s) |}).

(** [new X(this, id, props)]: the construct is registered under [id] and
    the program keeps a reference to it. *)
Definition new (id : string) (c : Construct) : Build string :=
  update (insert id c) ;; mret id.

(** [sg.addIngressRule(peer, port, description)].  The SDK compares a new
    rule with the ones the group has by peer and port range, not by
    description, and leaves out a rule the group has already. *)
Definition sameRule (r r' : IngressRule) : bool :=
  bool_decide (peer r = peer r') && bool_decide (connection r = connection r').

Definition addRule (r : IngressRule) (c : Construct) : Construct :=
  match c with
  | SecurityGroup out rules =>
      if existsb (sameRule r) rules then c else SecurityGroup out (rules ++ [r])
  | _ => c
  end.

Definition addIngressRule (sg : string) (p : Peer) (c : Port) (d : string) : Build unit :=
  update (alter (addRule {| peer := p; connection := c; description := d |}) sg).

(** [secretsmanager.Secret.fromSecretNameV2(this, id, name)]. *)
Definition fromSecretNameV2 (id name : string) : Build SecretReference :=
  new id (SecretByName {| secretName := name |}) ;;
  mret {| secretName := name |}.

(** What a listener does to its load balancer when it is open: the load
    balancer's security group gets an ingress rule for every IPv4 address
    on the listener's port. *)
Definition allowDefaultPortFromAnyone (alb : string) (port : Z) : Build unit :=
  λ s, match constructs s !! alb with
       | Some (ApplicationLoadBalancer a) =>
           addIngressRule (albSecurityGroup a) anyIpv4 (tcp port)
             ("Allow from anyone on port " +:+ pretty port) s
       | _ => (tt, s)
       end.

(** [alb.addListener(id, props)].  [open] defaults to [true] in the SDK:
    only a listener created with [open: false] leaves the security group
    of the load balancer as it is. *)
Definition addListener (alb id : string) (p : ListenerProps) : Build string :=
  listener ← new id (ApplicationListener alb p);
  match listenerOpen p with
  | Some false => mret tt
  | _ => allowDefaultPortFromAnyone alb (listenerPort p)
  end ;;
  mret listener.

(** [listener.addTargets(id, props)]. *)
Definition addTargets (l id : string) (p : AddApplicationTargetsProps) : Build unit :=
  new id (ApplicationTargetGroup l p) ;; mret tt.

(** [taskDefinition.addContainer(id, options)]. *)
Definition pushContainer (id : string) (o : ContainerDefinitionOptions)
    (c : Construct) : Construct :=
  match c with
  | Ec2TaskDefinition f m cs => Ec2TaskDefinition f m (cs ++ [(id, o)])
  | _ => c
  end.

Definition addContainer (td id : string) (o : ContainerDefinitionOptions) : Build unit :=
  update (alter (pushContainer id o) td).

(** [super(scope, id, props)] followed by the constructor's body. *)
Definition construct (body : DockerImageDeploymentStackProps → Build unit)
    (id : string) (props : DockerImageDeploymentStackProps) : Stack :=
  snd (body props {| stackId := id; stackProps := props; constructs := ∅ |}).

(** A double quote, for the shell commands that contain one. *)
Definition dq : string := String "034"%char EmptyString.

(** ** The literals both stack files share *)

(** The commands of [userData.addCommands(...)] on a fresh
    [ec2.UserData.forLinux()]: what the constructor itself writes into the
    user data.  The object stays shared with the auto scaling group, and
    the capacity provider, which is not part of the model, appends to it
    after these. *)
Definition userDataCommands : list string :=
  [ "echo " +:+ dq +:+ "ec2-user:your-password-here" +:+ dq +:+ " | chpasswd";
    "sed -i " +:+ dq +:+
      "s/PasswordAuthentication no/PasswordAuthentication yes/g" +:+ dq +:+
      " /etc/ssh/sshd_config";
    "systemctl restart sshd";
    "echo ECS_CLUSTER=nextjs-cluster >> /etc/ecs/ecs.config" ].

Definition plainEnvironment : gmap string string :=
  {[ "NODE_ENV" := "production";
     "PORT" := "3000";
     "HOSTNAME" := "0.0.0.0";
     "NEXT_TELEMETRY_DISABLED" := "1" ]}.

(** The container-level [healthCheck] literal. *)
Definition NextjsContainerHealthCheck : ContainerHealthCheck :=
  {| command := ["CMD-SHELL"; "exit 0"];
     containerInterval := seconds 30;
     containerTimeout := seconds 5;
     retries := 3;
     startPeriod := seconds 60 |}.

(** The [healthCheck] literal of [addTargets('EcsTargetGroup', ...)]. *)
Definition EcsTargetGroupHealthCheck : HealthCheck :=
  {| path := "/";
     interval := seconds 120;
     timeout := seconds 60;
     healthyThresholdCount := 2;
     unhealthyThresholdCount := 10;
     healthCheckPort := "traffic-port";
     healthCheckProtocol := HTTP |}.

(** ** src/unnamed/part_000: HTTPS listener, secrets from Secrets Manager *)

Module HttpsVariant.

Definition NextjsContainer (repository logGroup : string)
    (appSecrets : SecretReference) : ContainerDefinitionOptions :=
  {| containerName := "nextjs-container";
     image := (repository, "latest");
     logging := {| streamPrefix := "container"; logGroup := logGroup |};
     memoryReservationMiB := 200;
     memoryLimitMiB := 800;
     cpu := 128;
     portMappings := [ {| containerPort := 3000; hostPort := 0; protocol := TCP |} ];
     essential := true;
     startTimeout := minutes 10;
     stopTimeout := minutes 2;
     environment := plainEnvironment;
     secrets :=
       {[ "AUTH_SECRET" := fromSecretsManager appSecrets "AUTH_SECRET";
          "NEXTAUTH_URL" := fromSecretsManager appSecrets "NEXTAUTH_URL";
          "AUTH_GOOGLE_ID" := fromSecretsManager appSecrets "AUTH_GOOGLE_ID";
          "AUTH_GOOGLE_SECRET" := fromSecretsManager appSecrets "AUTH_GOOGLE_SECRET";
          "DATABASE_URL" := fromSecretsManager appSecrets "DATABASE_URL";
          "AUTH_TRUST_HOST" := fromSecretsManager appSecrets "AUTH_TRUST_HOST" ]};
     containerHealthCheck := NextjsContainerHealthCheck |}.

(** The constructor's statements, in the order of the file. *)
Definition body (props : DockerImageDeploymentStackProps) : Build unit :=
  repository ← new "NextjsEcrRepo" (Repository "nextjs-app" RETAIN);
  vpc ← new "NextjsVpc" (Vpc 1);
  cluster ← new "NextjsCluster" (Cluster "nextjs-cluster");
  logGroup ← new "LogGroup" (LogGroup "/aws/ecs/nextjs-cluster" DESTROY);
  ec2SecurityGroup ← new "Ec2SecurityGroup" (SecurityGroup true []);
  addIngressRule ec2SecurityGroup anyIpv4 (tcp 22) "Allow SSH access" ;;
  autoScalingGroup ← new "ASG" (AutoScalingGroup
    {| userData := userDataCommands;
       minCapacity := 1; maxCapacity := 1; desiredCapacity := 1;
       securityGroup := ec2SecurityGroup |});
  certificate ← new "SslCertificate" (Certificate (domainName props));
  albSecurityGroup ← new "AlbSecurityGroup" (SecurityGroup true []);
  addIngressRule albSecurityGroup anyIpv4 (tcp 443)
    "Allow HTTPS traffic from Cloudflare" ;;
  alb ← new "alb" (ApplicationLoadBalancer
    {| internetFacing := true; loadBalancerName := "nextjs-alb";
       albSecurityGroup := albSecurityGroup |});
  httpsListener ← addListener alb "HttpsListener"
    {| listenerPort := 443; listenerProtocol := Some HTTPS;
       certificates := [certificate]; listenerOpen := None;
       defaultAction := None |};
  addListener alb "HttpListener"
    {| listenerPort := 80; listenerProtocol := None;
       certificates := []; listenerOpen := None;
       defaultAction := Some {| redirectProtocol := "HTTPS"; redirectPort := "443" |} |} ;;
  serviceSecurityGroup ← new "ServiceSecurityGroup" (SecurityGroup true []);
  addIngressRule serviceSecurityGroup (securityGroupPeer albSecurityGroup) (tcp 3000)
    "Allow traffic from ALB" ;;
  addIngressRule ec2SecurityGroup (securityGroupPeer albSecurityGroup) (tcp 3000)
    "Allow traffic from ALB to container port 3000" ;;
  addIngressRule ec2SecurityGroup (securityGroupPeer albSecurityGroup)
    (tcpRange 32768 65535) "Allow traffic from ALB to dynamic ports" ;;
  appSecrets ← fromSecretNameV2 "AppSecrets" "nextjs-app/env";
  taskDefinition ← new "TaskDef" (Ec2TaskDefinition "nextjs-task-family" BRIDGE []);
  addContainer taskDefinition "NextjsContainer"
    (NextjsContainer repository logGroup appSecrets) ;;
  service ← new "Ec2Service" (Ec2Service
    {| serviceName := "nextjs-service"; serviceTaskDefinition := taskDefinition;
       desiredCount := 1; enableExecuteCommand := true |});
  addTargets httpsListener "EcsTargetGroup"
    {| targetPort := 80; targetProtocol := HTTP; targets := [service];
       healthCheck := EcsTargetGroupHealthCheck;
       deregistrationDelay := seconds 300 |} ;;
  new "LoadBalancerDNS" (CfnOutput
    {| value := loadBalancerDnsName alb;
       outputDescription := "ALB DNS name - Connected to Cloudflare" |}) ;;
  new "DomainName" (CfnOutput
    {| value := text ("https://" +:+ domainName props);
       outputDescription := "HTTPS URL (handled by Cloudflare)" |}) ;;
  mret tt.

Definition DockerImageDeploymentStack (id : string)
    (props : DockerImageDeploymentStackProps) : Stack :=
  construct body id props.

End HttpsVariant.

(** ** src/unnamed/part_001: HTTP listener only, no secrets *)

Module HttpVariant.

Definition NextjsContainer (repository logGroup : string) : ContainerDefinitionOptions :=
  {| containerName := "nextjs-container";
     image := (repository, "latest");
     logging := {| streamPrefix := "container"; logGroup := logGroup |};
     memoryReservationMiB := 200;
     memoryLimitMiB := 800;
     cpu := 128;
     portMappings := [ {| containerPort := 3000; hostPort := 0; protocol := TCP |} ];
     essential := true;
     startTimeout := minutes 10;
     stopTimeout := minutes 2;
     environment := plainEnvironment;
     secrets := ∅;
     containerHealthCheck := NextjsContainerHealthCheck |}.

(** The constructor's statements, in the order of the file. *)
Definition body (props : DockerImageDeploymentStackProps) : Build unit :=
  repository ← new "NextjsEcrRepo" (Repository "nextjs-app" RETAIN);
  vpc ← new "NextjsVpc" (Vpc 2);
  cluster ← new "NextjsCluster" (Cluster "nextjs-cluster");
  logGroup ← new "LogGroup" (LogGroup "/aws/ecs/nextjs-cluster" DESTROY);
  ec2SecurityGroup ← new "Ec2SecurityGroup" (SecurityGroup true []);
  addIngressRule ec2SecurityGroup anyIpv4 (tcp 22) "Allow SSH access" ;;
  autoScalingGroup ← new "ASG" (AutoScalingGroup
    {| userData := userDataCommands;
       minCapacity := 1; maxCapacity := 1; desiredCapacity := 1;
       securityGroup := ec2SecurityGroup |});
  albSecurityGroup ← new "AlbSecurityGroup" (SecurityGroup true []);
  addIngressRule albSecurityGroup anyIpv4 (tcp 80)
    "Allow HTTP traffic from Cloudflare" ;;
  alb ← new "alb" (ApplicationLoadBalancer
    {| internetFacing := true; loadBalancerName := "nextjs-alb";
       albSecurityGroup := albSecurityGroup |});
  httpListener ← addListener alb "HttpListener"
    {| listenerPort := 80; listenerProtocol := None;
       certificates := []; listenerOpen := Some true;
       defaultAction := None |};
  serviceSecurityGroup ← new "ServiceSecurityGroup" (SecurityGroup true []);
  addIngressRule serviceSecurityGroup (securityGroupPeer albSecurityGroup) (tcp 3000)
    "Allow traffic from ALB" ;;
  addIngressRule ec2SecurityGroup (securityGroupPeer albSecurityGroup) (tcp 3000)
    "Allow traffic from ALB to container port 3000" ;;
  addIngressRule ec2SecurityGroup (securityGroupPeer albSecurityGroup)
    (tcpRange 32768 65535) "Allow traffic from ALB to dynamic ports" ;;
  taskDefinition ← new "TaskDef" (Ec2TaskDefinition "nextjs-task-family" BRIDGE []);
  addContainer taskDefinition "NextjsContainer" (NextjsContainer repository logGroup) ;;
  service ← new "Ec2Service" (Ec2Service
    {| serviceName := "nextjs-service"; serviceTaskDefinition := taskDefinition;
       desiredCount := 1; enableExecuteCommand := true |});
  addTargets httpListener "EcsTargetGroup"
    {| targetPort := 80; targetProtocol := HTTP; targets := [service];
       healthCheck := EcsTargetGroupHealthCheck;
       deregistrationDelay := seconds 300 |} ;;
  new "LoadBalancerDNS" (CfnOutput
    {| value := loadBalancerDnsName alb;
       outputDescription := "ALB DNS name - Connected to Cloudflare" |}) ;;
  new "DomainName" (CfnOutput
    {| value := text ("https://" +:+ domainName props);
       outputDescription := "HTTPS URL (handled by Cloudflare)" |}) ;;
  mret tt.

Definition DockerImageDeploymentStack (id : string)
    (props : DockerImageDeploymentStackProps) : Stack :=
  construct body id props.

End HttpVariant.

(** ** src/bin/cdk.ts: the CLI entry point *)

Module Bin.

(** [new cdk.App()]: the stacks instantiated in it, in order. *)
Record App : Type := { stacks : list Stack }.

(** [a || b] where [a] is [string | undefined]: [undefined] and the empty
    string are falsy. *)
Definition logicalOr (a : option string) (b : string) : string :=
  match a with
  | Some s => if decide (s = "") then b else s
  | None => b
  end.

Section Main.

(** The class imported from ['../lib/docker-image-deployment']. *)
Variable DockerImageDeploymentStack :
  string → DockerImageDeploymentStackProps → Stack.

(** The script, run with [process.env] as [processEnv]. *)
Definition cdk (processEnv : gmap string string) : App :=
  {| stacks :=
       [ DockerImageDeploymentStack "MenbeeSchedulerStack"
           {| domainName := "menbee-scheduler.com";
              env := {| account := processEnv !! "CDK_DEFAULT_ACCOUNT";
                        region := Some (logicalOr (processEnv !! "CDK_DEFAULT_REGION")
                                           "ap-northeast-1") |} |} ] |}.

End Main.

End Bin.

(** ** Reading a constructed stack *)

(** Every ingress rule of the stack with the security group it is on. *)
Definition ingressRules (s : Stack) : list (string * IngressRule) :=
  List.concat
    (omap (λ ic, match ic.2 with
                 | SecurityGroup _ rules => Some ((λ r, (ic.1, r)) <$> rules)
                 | _ => None
                 end)
          (map_to_list (constructs s))).

Definition covers (c : Port) (p : Z) : bool :=
  bool_decide (fromPort c ≤ p ≤ toPort c)%Z.

(** Whether security group [sg] admits TCP port [p] from [source]. *)
Definition admits (s : Stack) (sg : string) (source : Peer) (p : Z) : bool :=
  existsb (λ gr, bool_decide (gr.1 = sg) && bool_decide (peer gr.2 = source)
                 && covers (connection gr.2) p)
          (ingressRules s).

Definition listeners (s : Stack) : list (string * ListenerProps) :=
  omap (λ ic, match ic.2 with
              | ApplicationListener _ p => Some (ic.1, p)
              | _ => None
              end)
       (map_to_list (constructs s)).

Definition targetGroups (s : Stack) : list (string * AddApplicationTargetsProps) :=
  omap (λ ic, match ic.2 with
              | ApplicationTargetGroup l p => Some (l, p)
              | _ => None
              end)
       (map_to_list (constructs s)).

Definition containerDefinitions (s : Stack) : list ContainerDefinitionOptions :=
  List.concat (omap (λ ic, match ic.2 with
                      | Ec2TaskDefinition _ _ cs => Some (snd <$> cs)
                      | _ => None
                      end)
               (map_to_list (constructs s))).

Definition taskDefinitions (s : Stack) : list (string * NetworkMode) :=
  omap (λ ic, match ic.2 with
              | Ec2TaskDefinition _ m _ => Some (ic.1, m)
              | _ => None
              end)
       (map_to_list (constructs s)).

Definition targetGroupHealthChecks (s : Stack) : list HealthCheck :=
  (λ lp, healthCheck lp.2) <$> targetGroups s.

Definition containerHealthChecks (s : Stack) : list ContainerHealthCheck :=
  containerHealthCheck <$> containerDefinitions s.

(** ** The eligibility state machine of the target-group health check *)

Module Eligibility.

(** Modelled from the spec: the health-check policy evaluator (section 4.1),
    which the external load balancer runs and no file of the repository
    contains.  The repository only supplies its parameters, the
    [healthCheck] block of the target group.  From the spec's words:
    [UNKNOWN → HEALTHY] after N consecutive passing probes,
    [HEALTHY → UNHEALTHY] after M consecutive failing probes,
    [UNHEALTHY → HEALTHY] after N consecutive passing probes again; the
    initial state is [UNKNOWN] and there is no terminal state. *)
Inductive Status : Type := UNKNOWN | HEALTHY | UNHEALTHY.

#[export] Instance Status_eq_dec : EqDecision Status.
Proof. solve_decision. Defined.

(** A target with the lengths of its current runs of consecutive passing
    and failing probes. *)
Record Target : Type := { status : Status; passes : Z; failures : Z }.

Definition initial : Target := {| status := UNKNOWN; passes := 0; failures := 0 |}.

(** Modelled from the spec: one probe.  A pass ends the run of failures
    and a failure ends the run of passes; a run that reaches the threshold
    of the policy moves the target. *)
Definition probe (hc : HealthCheck) (t : Target) (pass : bool) : Target :=
  if pass then
    let n := (passes t + 1)%Z in
    match status t with
    | HEALTHY => {| status := HEALTHY; passes := n; failures := 0 |}
    | st =>
        {| status := if bool_decide (healthyThresholdCount hc ≤ n)%Z
                     then HEALTHY else st;
           passes := n; failures := 0 |}
    end
  else
    let m := (failures t + 1)%Z in
    match status t with
    | HEALTHY =>
        {| status := if bool_decide (unhealthyThresholdCount hc ≤ m)%Z
                     then UNHEALTHY else HEALTHY;
           passes := 0; failures := m |}
    | st => {| status := st; passes := 0; failures := m |}
    end.

(** The probes of a sequence, oldest first. *)
Definition run (hc : HealthCheck) (t : Target) (probes : list bool) : Target :=
  fold_left (probe hc) probes t.

(** Modelled from the spec: eligible targets receive forwarded traffic. *)
Definition eligible (t : Target) : bool := bool_decide (status t = HEALTHY).

(** Modelled from the spec: the validation pass of the evaluator's contract
    (section 4.1: "reject configuration where timeout ≥ interval (fails
    with InvalidPolicy)").  No file of the repository validates a policy
    or names this error: the constructors hand the [healthCheck] block to
    the SDK, and a check of this kind is the SDK's. *)
Inductive PolicyError : Type := InvalidPolicy.

Definition validate (hc : HealthCheck) : option PolicyError :=
  if bool_decide (toSeconds (interval hc) ≤ toSeconds (timeout hc))%Z
  then Some InvalidPolicy else None.

(** Modelled from the spec: construction of a topology descriptor around
    the policy [hc] (sections 2 and 3: a flat configuration object plus a
    validation pass).  The descriptor comes into being only when its
    policy passes. *)
Inductive Outcome (A : Type) : Type :=
| Constructed (descriptor : A)
| Failed (e : PolicyError).

Arguments Constructed {A} descriptor.
Arguments Failed {A} e.

Definition constructTopology {A : Type} (hc : HealthCheck) (descriptor : A) : Outcome A :=
  match validate hc with
  | Some e => Failed e
  | None => Constructed descriptor
  end.

(** The longest run of probes with outcome [b] in a sequence that follows a
    run of [cur] such probes, [best] being the longest run seen before. *)
Fixpoint longest (b : bool) (cur best : Z) (probes : list bool) : Z :=
  match probes with
  | [] => best
  | p :: rest =>
      if bool_decide (p = b)
      then longest b (cur + 1) (Z.max best (cur + 1)) rest
      else longest b 0 best rest
  end.

Definition longestRun (b : bool) (probes : list bool) : Z := longest b 0 0 probes.

(** The run of passes is never negative, and a target that is not [HEALTHY]
    has fewer passes behind it than the healthy threshold. *)
Definition passesBelow (hc : HealthCheck) (t : Target) : Prop :=
  (0 ≤ passes t)%Z
  ∧ (status t ≠ HEALTHY → (passes t < healthyThresholdCount hc)%Z).

(** The run of failures is never negative, and a [HEALTHY] target has fewer
    failures behind it than the unhealthy threshold. *)
Definition failuresBelow (hc : HealthCheck) (t : Target) : Prop :=
  (0 ≤ failures t)%Z
  ∧ (status t = HEALTHY → (failures t < unhealthyThresholdCount hc)%Z).

End Eligibility.

(** ** The container-level probe *)

Module ContainerProbe.

(** Decimal digits to a number. *)
Fixpoint digits (s : string) (acc : Z) : option Z :=
  match s with
  | EmptyString => Some acc
  | String c rest =>
      let d := (Z.of_nat (nat_of_ascii c) - 48)%Z in
      if bool_decide (0 ≤ d ≤ 9)%Z then digits rest (10 * acc + d) else None
  end.

(** The shell builtin [exit n]: its status is [n], whatever runs in the
    container. *)
Definition exitBuiltin (cmd : string) : option Z :=
  match cmd with
  | String "e" (String "x" (String "i" (String "t" (String " " (String c rest))))) =>
      digits (String c rest) 0
  | _ => None
  end.

Section Probe.

(** The state of the application in the container, and the exit status
    of a command that is not the [exit] builtin, which may depend on it. *)
Variable AppState : Type.
Variable execute : AppState → list string → Z.

(** The exit status of the health-check command: [CMD-SHELL] hands the
    next element to the container's shell. *)
Definition exitStatus (app : AppState) (cmd : list string) : Z :=
  match cmd with
  | ["CMD-SHELL"; line] =>
      match exitBuiltin line with
      | Some n => n
      | None => execute app cmd
      end
  | _ => execute app cmd
  end.

(** A probe succeeds when the command exits with status 0. *)
Definition succeeds (hc : ContainerHealthCheck) (app : AppState) : bool :=
  bool_decide (exitStatus app (command hc) = 0%Z).

(** The number of failed probes over the states the application goes
    through. *)
Definition failedProbes (hc : ContainerHealthCheck) (apps : list AppState) : nat :=
  length (filter (λ app, succeeds hc app = false) apps).

End Probe.

End ContainerProbe.

(** ** What the properties speak about *)

(** The props the CLI entry point passes when [CDK_DEFAULT_ACCOUNT] and
    [CDK_DEFAULT_REGION] are unset. *)
Definition cliProps : DockerImageDeploymentStackProps :=
  {| domainName := "menbee-scheduler.com";
     env := {| account := None; region := Some "ap-northeast-1" |} |}.

(** The rule of [ec2SecurityGroup.addIngressRule(anyIpv4, tcp(22), ...)]. *)
Definition sshRule : IngressRule :=
  {| peer := anyIpv4; connection := tcp 22; description := "Allow SSH access" |}.

(** The rules both files add to the service's and the hosts' groups. *)
Definition hostRules : list (string * IngressRule) :=
  [ ("ServiceSecurityGroup",
     {| peer := securityGroupPeer "AlbSecurityGroup"; connection := tcp 3000;
        description := "Allow traffic from ALB" |});
    ("Ec2SecurityGroup", sshRule);
    ("Ec2SecurityGroup",
     {| peer := securityGroupPeer "AlbSecurityGroup"; connection := tcp 3000;
        description := "Allow traffic from ALB to container port 3000" |});
    ("Ec2SecurityGroup",
     {| peer := securityGroupPeer "AlbSecurityGroup";
        connection := tcpRange 32768 65535;
        description := "Allow traffic from ALB to dynamic ports" |}) ].

(** The rule an open listener on port 80 adds to the load balancer's
    group. *)
Definition openOn80 : string * IngressRule :=
  ("AlbSecurityGroup",
   {| peer := anyIpv4; connection := tcp 80;
      description := "Allow from anyone on port 80" |}).

(** The target group either file adds. *)
Definition EcsTargetGroup : AddApplicationTargetsProps :=
  {| targetPort := 80; targetProtocol := HTTP; targets := ["Ec2Service"];
     healthCheck := EcsTargetGroupHealthCheck;
     deregistrationDelay := seconds 300 |}.

(** The output [DomainName] for a domain name. *)
Definition domainNameOutput (d : string) : Construct :=
  CfnOutput {| value := text ("https://" +:+ d);
               outputDescription := "HTTPS URL (handled by Cloudflare)" |}.

(** The target groups added to the listener [l] of a stack. *)
Definition targetGroupsOf (s : Stack) (l : string) : list AddApplicationTargetsProps :=
  snd <$> List.filter (λ t, bool_decide (t.1 = l)) (targetGroups s).

(** The health check of the source with its interval lowered to its
    timeout, 60 seconds. *)
Definition equalTimeoutAndInterval : HealthCheck :=
  {| path := "/";
     interval := seconds 60;
     timeout := seconds 60;
     healthyThresholdCount := 2;
     unhealthyThresholdCount := 10;
     healthCheckPort := "traffic-port";
     healthCheckProtocol := HTTP |}.

(** The reading of "inbound public traffic on port 80 or 443 only": no
    security group of the stack admits any other port from every IPv4
    address. *)
Definition publicOn80Or443Only (s : Stack) : Prop :=
  ∀ sg p, admits s sg anyIpv4 p = true → p = 80%Z ∨ p = 443%Z.

(** The six keys of the [secrets] block. *)
Definition secretKeys : gset string :=
  {[ "AUTH_SECRET"; "NEXTAUTH_URL"; "AUTH_GOOGLE_ID"; "AUTH_GOOGLE_SECRET";
     "DATABASE_URL"; "AUTH_TRUST_HOST" ]}.

(** * Properties *)

(** ** The definitions on small inputs *)

Example two_passes_make_healthy :
  Eligibility.status
    (Eligibility.run EcsTargetGroupHealthCheck Eligibility.initial [true; true])
  = Eligibility.HEALTHY.
Proof. reflexivity. Qed.

Example a_failure_ends_the_run_of_passes :
  Eligibility.run EcsTargetGroupHealthCheck Eligibility.initial [true; false; true]
  = {| Eligibility.status := Eligibility.UNKNOWN;
       Eligibility.passes := 1; Eligibility.failures := 0 |}.
Proof. reflexivity. Qed.

Example longest_run_of_passes :
  Eligibility.longestRun true [true; false; true; true; true; false] = 3%Z.
Proof. reflexivity. Qed.

Example exit_with_status :
  ContainerProbe.exitBuiltin "exit 0" = Some 0%Z
  ∧ ContainerProbe.exitBuiltin "exit 17" = Some 17%Z
  ∧ ContainerProbe.exitBuiltin "curl -f http://localhost:3000/" = None.
Proof. by repeat split. Qed.

Example exit_1_fails_the_probe :
  ContainerProbe.succeeds unit (λ _ _, 0%Z)
    {| command := ["CMD-SHELL"; "exit 1"];
       containerInterval := seconds 30; containerTimeout := seconds 5;
       retries := 3; startPeriod := seconds 60 |} tt
  = false.
Proof. reflexivity. Qed.

Example region_falls_back :
  Bin.logicalOr None "ap-northeast-1" = "ap-northeast-1"
  ∧ Bin.logicalOr (Some "") "ap-northeast-1" = "ap-northeast-1"
  ∧ Bin.logicalOr (Some "us-east-1") "ap-northeast-1" = "us-east-1".
Proof. by repeat split. Qed.

Example dynamic_range_covers :
  covers (tcpRange 32768 65535) 32768 = true
  ∧ covers (tcpRange 32768 65535) 65535 = true
  ∧ covers (tcpRange 32768 65535) 3000 = false
  ∧ covers (tcp 22) 22 = true.
Proof. by repeat split. Qed.

Example an_open_listener_opens_its_port :
  ingressRules
    (construct
       (λ _, sg ← new "Sg" (SecurityGroup true []);
             alb ← new "Lb" (ApplicationLoadBalancer
                      {| internetFacing := true; loadBalancerName := "lb";
                         albSecurityGroup := sg |});
             addListener alb "Open"
               {| listenerPort := 8080; listenerProtocol := None; certificates := [];
                  listenerOpen := None; defaultAction := None |} ;;
             addListener alb "Closed"
               {| listenerPort := 8443; listenerProtocol := None; certificates := [];
                  listenerOpen := Some false; defaultAction := None |} ;;
             addIngressRule sg anyIpv4 (tcp 8080) "once more" ;;
             mret tt)
       "Stack" cliProps)
  = [ ("Sg", {| peer := anyIpv4; connection := tcp 8080;
                description := "Allow from anyone on port 8080" |}) ].
Proof. vm_compute. reflexivity. Qed.

(** ** The evaluator: runs of probes *)

Section Evaluator.

Import Eligibility.

Variable hc : HealthCheck.

Abbreviation N := (healthyThresholdCount hc).
Abbreviation M := (unhealthyThresholdCount hc).

Lemma run_snoc (t : Target) (probes : list bool) (p : bool) :
  run hc t (probes ++ [p]) = probe hc (run hc t probes) p.
Proof. unfold run. by rewrite fold_left_app. Qed.

Lemma run_app (t : Target) (ps qs : list bool) :
  run hc t (ps ++ qs) = run hc (run hc t ps) qs.
Proof. unfold run. by rewrite fold_left_app. Qed.

Lemma repeat_snoc {A} (x : A) (k : nat) :
  repeat x (S k) = (repeat x k ++ [x])%list.
Proof. induction k as [|k IH]; [done|]. simpl in *. by rewrite <- IH. Qed.

(** A run of passes on a target that is not yet [HEALTHY]. *)
Lemma run_passes (t : Target) (k : nat) :
  status t ≠ HEALTHY → (passes t < N)%Z →
  status (run hc t (repeat true k))
    = (if bool_decide (N ≤ passes t + Z.of_nat k)%Z then HEALTHY else status t)
  ∧ passes (run hc t (repeat true k)) = (passes t + Z.of_nat k)%Z.
Proof.
  intros Hs Hp. induction k as [|k [IHs IHp]].
  - simpl. rewrite bool_decide_eq_false_2 by lia. split; [done | lia].
  - rewrite repeat_snoc, run_snoc. unfold probe.
    rewrite IHp, IHs.
    repeat case_bool_decide; destruct (status t); simpl;
      repeat case_bool_decide; try done; try lia; split; (done || lia).
Qed.

(** A run of failures on a [HEALTHY] target. *)
Lemma run_failures (t : Target) (k : nat) :
  status t = HEALTHY → (failures t < M)%Z →
  status (run hc t (repeat false k))
    = (if bool_decide (M ≤ failures t + Z.of_nat k)%Z then UNHEALTHY else HEALTHY)
  ∧ failures (run hc t (repeat false k)) = (failures t + Z.of_nat k)%Z.
Proof.
  intros Hs Hp. induction k as [|k [IHs IHp]].
  - simpl. rewrite bool_decide_eq_false_2 by lia. split; [done | lia].
  - rewrite repeat_snoc, run_snoc. unfold probe.
    rewrite IHp, IHs.
    repeat case_bool_decide; simpl;
      repeat case_bool_decide; try done; try lia; split; (done || lia).
Qed.

(** A failing probe ends the run of passes. *)
Lemma passes_after_failures (t : Target) (k : nat) :
  passes (run hc t (repeat false (S k))) = 0%Z.
Proof.
  rewrite repeat_snoc, run_snoc. unfold probe.
  by destruct (status (run hc t (repeat false k))).
Qed.

(** No probe takes a target back to [UNKNOWN]. *)
Lemma run_not_unknown (probes : list bool) (t : Target) :
  status t ≠ UNKNOWN → status (run hc t probes) ≠ UNKNOWN.
Proof.
  revert t. induction probes as [|p rest IH]; intros t Ht; [done|].
  apply IH. unfold probe.
  destruct p, (status t); simpl; try done; by case_bool_decide.
Qed.

Lemma longest_ge (b : bool) (probes : list bool) (cur best : Z) :
  (best ≤ longest b cur best probes)%Z.
Proof.
  revert cur best. induction probes as [|p rest IH]; intros cur best; simpl; [lia|].
  case_bool_decide.
  - specialize (IH (cur + 1)%Z (Z.max best (cur + 1))). lia.
  - apply IH.
Qed.

Lemma passesBelow_run (probes : list bool) (t : Target) :
  (1 ≤ N)%Z → passesBelow hc t → passesBelow hc (run hc t probes).
Proof.
  intros HN. revert t.
  induction probes as [|p rest IH]; intros t [Hp Hn]; [done|].
  apply IH. unfold passesBelow, probe.
  destruct p; destruct (status t) eqn:Hs; simpl;
    repeat case_bool_decide; split; intros; try done; try lia.
Qed.

Lemma failuresBelow_run (probes : list bool) (t : Target) :
  (1 ≤ M)%Z → failuresBelow hc t → failuresBelow hc (run hc t probes).
Proof.
  intros HM. revert t.
  induction probes as [|p rest IH]; intros t [Hf Hm]; [done|].
  apply IH. unfold failuresBelow, probe.
  destruct p; destruct (status t) eqn:Hs; simpl;
    repeat case_bool_decide; split; intros; try done; try lia.
  all: ospecialize (Hm _); [done | lia].
Qed.

(** As long as it is [UNKNOWN] the target has seen no run of [N] passes,
    and the other way round. *)
Lemma unknown_longest (probes : list bool) (t : Target) (best : Z) :
  status t = UNKNOWN → (0 ≤ best)%Z → (passes t ≤ best)%Z → (best < N)%Z →
  status (run hc t probes) = UNKNOWN ↔ (longest true (passes t) best probes < N)%Z.
Proof.
  revert t best. induction probes as [|p rest IH]; intros t best Hs H0 Hp Hb.
  - simpl. split; [lia | done].
  - destruct p.
    2: change (run hc t (false :: rest)) with (run hc (probe hc t false) rest);
       change (longest true (passes t) best (false :: rest))
         with (longest true 0 best rest).
    1: change (run hc t (true :: rest)) with (run hc (probe hc t true) rest);
       change (longest true (passes t) best (true :: rest))
         with (longest true (passes t + 1) (Z.max best (passes t + 1)) rest).
    + destruct (decide (N ≤ passes t + 1)%Z) as [Hn|Hn].
      * split.
        -- intros Hu. exfalso. revert Hu. apply run_not_unknown.
           unfold probe. rewrite Hs. simpl.
           by rewrite bool_decide_eq_true_2.
        -- intros Hl.
           pose proof (longest_ge true rest (passes t + 1)
                         (Z.max best (passes t + 1))). lia.
      * assert (probe hc t true
                = {| status := UNKNOWN; passes := passes t + 1; failures := 0 |})
          as ->.
        { unfold probe. rewrite Hs.
          by rewrite bool_decide_eq_false_2. }
        apply (IH {| status := UNKNOWN; passes := passes t + 1; failures := 0 |}
                  (Z.max best (passes t + 1))); simpl; (done || lia).
    + assert (probe hc t false
              = {| status := UNKNOWN; passes := 0; failures := failures t + 1 |})
        as ->.
      { unfold probe. by rewrite Hs. }
      apply (IH {| status := UNKNOWN; passes := 0; failures := failures t + 1 |}
                best); simpl; (done || lia).
Qed.

(** A [HEALTHY] target that never sees [M] failures in a row stays
    [HEALTHY]. *)
Lemma healthy_longest (probes : list bool) (t : Target) (best : Z) :
  status t = HEALTHY → (0 ≤ best)%Z → (failures t ≤ best)%Z →
  (longest false (failures t) best probes < M)%Z →
  status (run hc t probes) = HEALTHY.
Proof.
  revert t best.
  induction probes as [|p rest IH]; intros t best Hs H0 Hf Hl; [done|].
  destruct p.
  - change (run hc t (true :: rest)) with (run hc (probe hc t true) rest).
    change (longest false 0 best rest < M)%Z in Hl.
    assert (probe hc t true
            = {| status := HEALTHY; passes := passes t + 1; failures := 0 |})
      as ->.
    { unfold probe. by rewrite Hs. }
    by apply (IH {| status := HEALTHY; passes := passes t + 1; failures := 0 |}
                best).
  - change (run hc t (false :: rest)) with (run hc (probe hc t false) rest).
    change (longest false (failures t + 1) (Z.max best (failures t + 1)) rest
            < M)%Z in Hl.
    pose proof (longest_ge false rest (failures t + 1)
                  (Z.max best (failures t + 1))).
    assert (probe hc t false
            = {| status := HEALTHY; passes := 0; failures := failures t + 1 |})
      as ->.
    { unfold probe. rewrite Hs.
      rewrite bool_decide_eq_false_2; [done | lia]. }
    apply (IH {| status := HEALTHY; passes := 0; failures := failures t + 1 |}
              (Z.max best (failures t + 1))); simpl; (done || lia).
Qed.

(** From [initial]: the target is still [UNKNOWN] exactly when no run of
    [N] passes has occurred. *)
Lemma unknown_iff (probes : list bool) :
  (1 ≤ N)%Z →
  status (run hc initial probes) = UNKNOWN ↔ (longestRun true probes < N)%Z.
Proof.
  intros HN. apply (unknown_longest probes initial 0); simpl; (done || lia).
Qed.

(** From [initial]: [N] passes right after a sequence without a run of
    [N] passes make the target [HEALTHY]. *)
Lemma healthy_after (probes : list bool) :
  (1 ≤ N)%Z → (longestRun true probes < N)%Z →
  status (run hc initial (probes ++ repeat true (Z.to_nat N))) = HEALTHY.
Proof.
  intros HN Hl. rewrite run_app.
  assert (status (run hc initial probes) = UNKNOWN) as Hu
    by by apply unknown_iff.
  destruct (passesBelow_run probes initial HN) as [Hp Hn].
  { split; simpl; intros; lia. }
  destruct (run_passes (run hc initial probes) (Z.to_nat N)) as [-> _].
  - by rewrite Hu.
  - apply Hn. by rewrite Hu.
  - rewrite bool_decide_eq_true_2; [done | lia].
Qed.

(** From [initial]: an eligible target has seen a run of [N] passes. *)
Lemma eligible_needs_run (probes : list bool) :
  (1 ≤ N)%Z → eligible (run hc initial probes) = true →
  (N ≤ longestRun true probes)%Z.
Proof.
  intros HN He. apply bool_decide_eq_true in He.
  destruct (decide (longestRun true probes < N)%Z) as [Hl|Hl]; [|lia].
  apply (unknown_iff probes HN) in Hl. congruence.
Qed.

(** The way down and back of a [HEALTHY] target [t] with fewer than [M]
    failures behind it. *)
Lemma down_and_back (t : Target) :
  status t = HEALTHY → (0 ≤ failures t < M)%Z → (1 ≤ N)%Z →
  status (run hc t (repeat false (Z.to_nat (M - failures t)))) = UNHEALTHY
  ∧ status (run hc t (repeat false (Z.to_nat (M - failures t))
                       ++ repeat true (Z.to_nat N))) = HEALTHY.
Proof.
  intros Ht Hf HN. set (m := Z.to_nat (M - failures t)).
  assert (status (run hc t (repeat false m)) = UNHEALTHY) as Hd.
  { destruct (run_failures t m) as [-> _]; [done | lia |].
    rewrite bool_decide_eq_true_2; [done | lia]. }
  split; [done|]. rewrite run_app.
  assert (passes (run hc t (repeat false m)) = 0%Z) as H0.
  { destruct m as [|m'] eqn:Hm; [lia|]. apply passes_after_failures. }
  destruct (run_passes (run hc t (repeat false m)) (Z.to_nat N)) as [-> _].
  - by rewrite Hd.
  - lia.
  - rewrite bool_decide_eq_true_2; [done | lia].
Qed.

End Evaluator.

(** ** What the two constructors build *)

Section Built.

Variable id : string.
Variable props : DockerImageDeploymentStackProps.

Lemma Https_ingressRules :
  ingressRules (HttpsVariant.DockerImageDeploymentStack id props)
  = (hostRules ++
     [ ("AlbSecurityGroup",
        {| peer := anyIpv4; connection := tcp 443;
           description := "Allow HTTPS traffic from Cloudflare" |});
       openOn80 ])%list.
Proof. vm_compute. reflexivity. Qed.

Lemma Http_ingressRules :
  ingressRules (HttpVariant.DockerImageDeploymentStack id props)
  = (hostRules ++
     [ ("AlbSecurityGroup",
        {| peer := anyIpv4; connection := tcp 80;
           description := "Allow HTTP traffic from Cloudflare" |}) ])%list.
Proof. vm_compute. reflexivity. Qed.

Lemma Https_stack_targetGroups :
  targetGroups (HttpsVariant.DockerImageDeploymentStack id props)
  = [("HttpsListener", EcsTargetGroup)].
Proof. vm_compute. reflexivity. Qed.

Lemma Http_stack_targetGroups :
  targetGroups (HttpVariant.DockerImageDeploymentStack id props)
  = [("HttpListener", EcsTargetGroup)].
Proof. vm_compute. reflexivity. Qed.

Lemma Https_stack_healthChecks :
  targetGroupHealthChecks (HttpsVariant.DockerImageDeploymentStack id props)
  = [EcsTargetGroupHealthCheck].
Proof. unfold targetGroupHealthChecks. by rewrite Https_stack_targetGroups. Qed.

Lemma Http_stack_healthChecks :
  targetGroupHealthChecks (HttpVariant.DockerImageDeploymentStack id props)
  = [EcsTargetGroupHealthCheck].
Proof. unfold targetGroupHealthChecks. by rewrite Http_stack_targetGroups. Qed.

Lemma Https_containerDefinitions :
  containerDefinitions (HttpsVariant.DockerImageDeploymentStack id props)
  = [HttpsVariant.NextjsContainer "NextjsEcrRepo" "LogGroup"
       {| secretName := "nextjs-app/env" |}].
Proof. vm_compute. reflexivity. Qed.

Lemma Http_containerDefinitions :
  containerDefinitions (HttpVariant.DockerImageDeploymentStack id props)
  = [HttpVariant.NextjsContainer "NextjsEcrRepo" "LogGroup"].
Proof. vm_compute. reflexivity. Qed.

Lemma Https_containerHealthChecks :
  containerHealthChecks (HttpsVariant.DockerImageDeploymentStack id props)
  = [NextjsContainerHealthCheck].
Proof. unfold containerHealthChecks. by rewrite Https_containerDefinitions. Qed.

Lemma Http_containerHealthChecks :
  containerHealthChecks (HttpVariant.DockerImageDeploymentStack id props)
  = [NextjsContainerHealthCheck].
Proof. unfold containerHealthChecks. by rewrite Http_containerDefinitions. Qed.

Lemma Https_listeners :
  listeners (HttpsVariant.DockerImageDeploymentStack id props)
  = [ ("HttpsListener",
       {| listenerPort := 443; listenerProtocol := Some HTTPS;
          certificates := ["SslCertificate"]; listenerOpen := None;
          defaultAction := None |});
      ("HttpListener",
       {| listenerPort := 80; listenerProtocol := None;
          certificates := []; listenerOpen := None;
          defaultAction :=
            Some {| redirectProtocol := "HTTPS"; redirectPort := "443" |} |}) ].
Proof. vm_compute. reflexivity. Qed.

Lemma Http_listeners :
  listeners (HttpVariant.DockerImageDeploymentStack id props)
  = [ ("HttpListener",
       {| listenerPort := 80; listenerProtocol := None;
          certificates := []; listenerOpen := Some true;
          defaultAction := None |}) ].
Proof. vm_compute. reflexivity. Qed.

Lemma Https_taskDefinitions :
  taskDefinitions (HttpsVariant.DockerImageDeploymentStack id props)
  = [("TaskDef", BRIDGE)].
Proof. vm_compute. reflexivity. Qed.

Lemma Http_taskDefinitions :
  taskDefinitions (HttpVariant.DockerImageDeploymentStack id props)
  = [("TaskDef", BRIDGE)].
Proof. vm_compute. reflexivity. Qed.

Lemma Https_loadBalancer :
  constructs (HttpsVariant.DockerImageDeploymentStack id props) !! "alb"
  = Some (ApplicationLoadBalancer
            {| internetFacing := true; loadBalancerName := "nextjs-alb";
               albSecurityGroup := "AlbSecurityGroup" |}).
Proof. vm_compute. reflexivity. Qed.

Lemma Http_loadBalancer :
  constructs (HttpVariant.DockerImageDeploymentStack id props) !! "alb"
  = Some (ApplicationLoadBalancer
            {| internetFacing := true; loadBalancerName := "nextjs-alb";
               albSecurityGroup := "AlbSecurityGroup" |}).
Proof. vm_compute. reflexivity. Qed.

Lemma Https_autoScalingGroup :
  constructs (HttpsVariant.DockerImageDeploymentStack id props) !! "ASG"
  = Some (AutoScalingGroup
            {| userData := userDataCommands;
               minCapacity := 1; maxCapacity := 1; desiredCapacity := 1;
               securityGroup := "Ec2SecurityGroup" |}).
Proof. vm_compute. reflexivity. Qed.

Lemma Http_autoScalingGroup :
  constructs (HttpVariant.DockerImageDeploymentStack id props) !! "ASG"
  = Some (AutoScalingGroup
            {| userData := userDataCommands;
               minCapacity := 1; maxCapacity := 1; desiredCapacity := 1;
               securityGroup := "Ec2SecurityGroup" |}).
Proof. vm_compute. reflexivity. Qed.

Lemma Https_service :
  constructs (HttpsVariant.DockerImageDeploymentStack id props) !! "Ec2Service"
  = Some (Ec2Service
            {| serviceName := "nextjs-service";
               serviceTaskDefinition := "TaskDef";
               desiredCount := 1; enableExecuteCommand := true |}).
Proof. vm_compute. reflexivity. Qed.

Lemma Http_service :
  constructs (HttpVariant.DockerImageDeploymentStack id props) !! "Ec2Service"
  = Some (Ec2Service
            {| serviceName := "nextjs-service";
               serviceTaskDefinition := "TaskDef";
               desiredCount := 1; enableExecuteCommand := true |}).
Proof. vm_compute. reflexivity. Qed.

End Built.

(** The rules of a stack, case by case. *)
Ltac admits_cases :=
  unfold admits;
  rewrite ?Https_ingressRules, ?Http_ingressRules;
  unfold hostRules, openOn80, sshRule, tcp, tcpRange, covers;
  cbn [existsb app fst snd peer connection fromPort toPort];
  rewrite ?orb_true_iff, ?andb_true_iff, ?bool_decide_eq_true;
  intuition (subst; try discriminate; try lia; auto).

(** ** Construction and the health-check block *)


(** ** The eligibility machine under the thresholds of a policy *)

Section Thresholds.

Import Eligibility.

(** C2 — From [UNKNOWN] a target becomes [HEALTHY] exactly after
    [healthyThresholdCount] consecutive passing probes: [k] passes in a
    row from the initial state give [HEALTHY] exactly when [k] reaches
    the threshold; after any probe sequence the target is still
    [UNKNOWN] exactly when the sequence holds no run of that many passes
    (so fewer consecutive passes never make it [HEALTHY]); and a run of
    exactly that many passes after such a sequence makes it [HEALTHY]. *)
Theorem healthy_exactly_after_threshold_passes (hc : HealthCheck) :
  (1 ≤ healthyThresholdCount hc)%Z →
  (∀ k : nat,
     status (run hc initial (repeat true k)) = HEALTHY
     ↔ (healthyThresholdCount hc ≤ Z.of_nat k)%Z)
  ∧ (∀ probes : list bool,
       status (run hc initial probes) = UNKNOWN
       ↔ (longestRun true probes < healthyThresholdCount hc)%Z)
  ∧ (∀ probes : list bool,
       (longestRun true probes < healthyThresholdCount hc)%Z →
       status (run hc initial probes) ≠ HEALTHY
       ∧ status (run hc initial
                   (probes ++ repeat true (Z.to_nat (healthyThresholdCount hc))))
         = HEALTHY).
Proof.
  intros HN. split; [|split].
  - intros k.
    destruct (run_passes hc initial k) as [-> _]; simpl; [done | lia |].
    case_bool_decide; split; intros; (done || lia).
  - intros probes. by apply unknown_iff.
  - intros probes Hl. split.
    + apply (unknown_iff hc probes HN) in Hl. by rewrite Hl.
    + by apply healthy_after.
Qed.

(** The threshold theorem at the policy of the source: two passes from
    [initial], and a sequence with no two passes in a row. *)
Lemma healthy_exactly_after_threshold_passes_witness :
  (1 ≤ healthyThresholdCount EcsTargetGroupHealthCheck)%Z
  ∧ (status (run EcsTargetGroupHealthCheck initial (repeat true 2)) = HEALTHY
     ↔ (healthyThresholdCount EcsTargetGroupHealthCheck ≤ Z.of_nat 2)%Z)
  ∧ (status (run EcsTargetGroupHealthCheck initial [true; false; true]) = UNKNOWN
     ↔ (longestRun true [true; false; true]
          < healthyThresholdCount EcsTargetGroupHealthCheck)%Z).
Proof.
  assert (1 ≤ healthyThresholdCount EcsTargetGroupHealthCheck)%Z as H
    by (simpl; lia).
  split; [exact H|].
  destruct (healthy_exactly_after_threshold_passes EcsTargetGroupHealthCheck H)
    as (Hk & Hu & _).
  split; [apply (Hk 2%nat) | apply (Hu [true; false; true])].
Defined.

(** C3 — A target that some probe history [before] has left [HEALTHY]
    becomes [UNHEALTHY] exactly after [unhealthyThresholdCount] consecutive
    failing probes: the failures at the end of [before] number fewer than
    the threshold; [k] more in a row give [UNHEALTHY] exactly when the run
    reaches the threshold and leave the target [HEALTHY] otherwise; any
    continuation whose runs of failures all stay below the threshold
    leaves it [HEALTHY]; and the failures that complete the run followed
    by [healthyThresholdCount] passes take it to [UNHEALTHY] and back to
    [HEALTHY].  A target that a history [after] has left [UNHEALTHY] is
    [HEALTHY] again exactly when its run of passes reaches
    [healthyThresholdCount]. *)
Theorem unhealthy_exactly_after_threshold_failures
    (hc : HealthCheck) (before after : list bool) :
  (1 ≤ healthyThresholdCount hc)%Z →
  (1 ≤ unhealthyThresholdCount hc)%Z →
  status (run hc initial before) = HEALTHY →
  status (run hc initial after) = UNHEALTHY →
  (0 ≤ failures (run hc initial before) < unhealthyThresholdCount hc)%Z
  ∧ (∀ k : nat,
       status (run hc initial (before ++ repeat false k))
       = if bool_decide (unhealthyThresholdCount hc
                           ≤ failures (run hc initial before) + Z.of_nat k)%Z
         then UNHEALTHY else HEALTHY)
  ∧ (∀ probes : list bool,
       (longest false (failures (run hc initial before))
          (failures (run hc initial before)) probes
          < unhealthyThresholdCount hc)%Z →
       status (run hc initial (before ++ probes)) = HEALTHY)
  ∧ (status (run hc initial
               (before ++ repeat false
                  (Z.to_nat (unhealthyThresholdCount hc
                               - failures (run hc initial before)))))
       = UNHEALTHY
     ∧ status (run hc initial
                 (before ++ repeat false
                    (Z.to_nat (unhealthyThresholdCount hc
                                 - failures (run hc initial before)))
                  ++ repeat true (Z.to_nat (healthyThresholdCount hc))))
       = HEALTHY)
  ∧ (0 ≤ passes (run hc initial after) < healthyThresholdCount hc)%Z
  ∧ (∀ k : nat,
       status (run hc initial (after ++ repeat true k))
       = if bool_decide (healthyThresholdCount hc
                           ≤ passes (run hc initial after) + Z.of_nat k)%Z
         then HEALTHY else UNHEALTHY).
Proof.
  intros HN HM Ht Hu.
  destruct (failuresBelow_run hc before initial HM) as [Hf0 Hf].
  { split; simpl; intros; lia. }
  destruct (passesBelow_run hc after initial HN) as [Hp0 Hp].
  { split; simpl; intros; lia. }
  specialize (Hf Ht). ospecialize (Hp _); [by rewrite Hu|].
  split; [lia|]. split; [|split; [|split; [|split; [lia|]]]].
  - intros k. rewrite run_app.
    by destruct (run_failures hc (run hc initial before) k) as [-> _].
  - intros probes Hl. rewrite run_app.
    apply (healthy_longest hc probes _ (failures (run hc initial before)));
      (done || lia).
  - rewrite !run_app. rewrite <- (run_app hc (run hc initial before)).
    apply (down_and_back hc (run hc initial before)); (done || lia).
  - intros k. rewrite run_app.
    destruct (run_passes hc (run hc initial after) k) as [-> _];
      [by rewrite Hu | done |].
    by rewrite Hu.
Qed.

(** The threshold theorem at the policy of the source: after two passes
    the target is healthy, nine failures leave it healthy and the tenth
    makes it unhealthy; then one pass leaves it unhealthy and the second
    makes it healthy. *)
Lemma unhealthy_exactly_after_threshold_failures_witness :
  (1 ≤ healthyThresholdCount EcsTargetGroupHealthCheck)%Z
  ∧ (1 ≤ unhealthyThresholdCount EcsTargetGroupHealthCheck)%Z
  ∧ status (run EcsTargetGroupHealthCheck initial [true; true]) = HEALTHY
  ∧ status (run EcsTargetGroupHealthCheck initial
              ([true; true] ++ repeat false 10)) = UNHEALTHY
  ∧ status (run EcsTargetGroupHealthCheck initial
              ([true; true] ++ repeat false 9)) = HEALTHY
  ∧ status (run EcsTargetGroupHealthCheck initial
              (([true; true] ++ repeat false 10) ++ repeat true 1)) = UNHEALTHY
  ∧ status (run EcsTargetGroupHealthCheck initial
              (([true; true] ++ repeat false 10) ++ repeat true 2)) = HEALTHY.
Proof.
  assert (1 ≤ healthyThresholdCount EcsTargetGroupHealthCheck)%Z as HN
    by (simpl; lia).
  assert (1 ≤ unhealthyThresholdCount EcsTargetGroupHealthCheck)%Z as HM
    by (simpl; lia).
  assert (status (run EcsTargetGroupHealthCheck initial [true; true]) = HEALTHY)
    as Ht by reflexivity.
  assert (status (run EcsTargetGroupHealthCheck initial
                    ([true; true] ++ repeat false 10)) = UNHEALTHY)
    as Hu by reflexivity.
  destruct (unhealthy_exactly_after_threshold_failures
              EcsTargetGroupHealthCheck [true; true]
              ([true; true] ++ repeat false 10) HN HM Ht Hu)
    as (_ & Hdown & _ & _ & _ & Hup).
  split; [exact HN|]. split; [exact HM|]. split; [exact Ht|]. split; [exact Hu|].
  split; [exact (Hdown 9%nat)|].
  split; [exact (Hup 1%nat) | exact (Hup 2%nat)].
Defined.

End Thresholds.

(** ** The health-check blocks of the source *)

(** C4 — Every health-check block the stack creates keeps the invariant of
    the data model: the target-group probe has its timeout strictly below
    its interval and an unhealthy threshold of at least 1, and the
    container-level probe has its timeout strictly below its interval and
    at least 1 retry (its count of failures before the container is
    unhealthy).  Each stack has exactly one block of either kind. *)
Theorem health_check_blocks_keep_the_invariant
    (id : string) (props : DockerImageDeploymentStackProps) :
  Forall
    (λ s,
       length (targetGroupHealthChecks s) = 1%nat
       ∧ length (containerHealthChecks s) = 1%nat
       ∧ Forall (λ hc, (toSeconds (timeout hc) < toSeconds (interval hc))%Z
                       ∧ (1 ≤ unhealthyThresholdCount hc)%Z)
           (targetGroupHealthChecks s)
       ∧ Forall (λ hc, (toSeconds (containerTimeout hc)
                          < toSeconds (containerInterval hc))%Z
                       ∧ (1 ≤ retries hc)%Z)
           (containerHealthChecks s))
    [ HttpsVariant.DockerImageDeploymentStack id props;
      HttpVariant.DockerImageDeploymentStack id props ].
Proof.
  apply Forall_cons. split; [|apply Forall_cons; split; [|by apply Forall_nil]].
  all: rewrite ?Https_stack_healthChecks, ?Http_stack_healthChecks,
         ?Https_containerHealthChecks, ?Http_containerHealthChecks.
  all: repeat split; repeat constructor; simpl; lia.
Qed.

Section Example.

Import Eligibility.

(** C5 — The target-group health check of either stack is the policy of
    the spec's example: probing path "/", interval 120 s, timeout 60 s,
    healthy threshold 2, unhealthy threshold 10.  Under it a target that
    starts [UNKNOWN] is not eligible before any probe nor after one pass,
    and is eligible after two passes in a row; an eligible target has seen
    two passes in a row, and two passes after a sequence without such a
    run make it eligible. *)
Theorem target_group_policy_is_the_example
    (id : string) (props : DockerImageDeploymentStackProps) :
  Forall
    (λ s, ∃ hc,
       targetGroupHealthChecks s = [hc]
       ∧ path hc = "/"
       ∧ toSeconds (interval hc) = 120%Z
       ∧ toSeconds (timeout hc) = 60%Z
       ∧ healthyThresholdCount hc = 2%Z
       ∧ unhealthyThresholdCount hc = 10%Z
       ∧ eligible (run hc initial []) = false
       ∧ eligible (run hc initial [true]) = false
       ∧ eligible (run hc initial [true; true]) = true
       ∧ (∀ probes : list bool,
            eligible (run hc initial probes) = true →
            (2 ≤ longestRun true probes)%Z)
       ∧ (∀ probes : list bool,
            (longestRun true probes < 2)%Z →
            eligible (run hc initial probes) = false
            ∧ eligible (run hc initial (probes ++ [true; true])) = true))
    [ HttpsVariant.DockerImageDeploymentStack id props;
      HttpVariant.DockerImageDeploymentStack id props ].
Proof.
  assert (∀ probes : list bool,
            (longestRun true probes < 2)%Z →
            eligible (run EcsTargetGroupHealthCheck initial probes) = false
            ∧ eligible (run EcsTargetGroupHealthCheck initial
                          (probes ++ [true; true])) = true) as Hrun.
  { intros probes Hl. split.
    - apply bool_decide_eq_false.
      destruct (unknown_iff EcsTargetGroupHealthCheck probes) as [_ Hu];
        [done|].
      by rewrite (Hu Hl).
    - apply bool_decide_eq_true.
      by apply (healthy_after EcsTargetGroupHealthCheck probes). }
  apply Forall_cons. split; [|apply Forall_cons; split; [|by apply Forall_nil]].
  all: cbv beta; exists EcsTargetGroupHealthCheck.
  all: rewrite ?Https_stack_healthChecks, ?Http_stack_healthChecks.
  all: repeat (split; [reflexivity|]).
  all: split; [|exact Hrun].
  all: intros probes He.
  all: by apply (eligible_needs_run EcsTargetGroupHealthCheck probes).
Qed.

End Example.

(** ** The network boundary *)

(** C6, as stated, fails: in either stack the security group of the
    compute hosts admits TCP port 22 from every IPv4 address. *)
Lemma ssh_is_admitted_from_every_address :
  admits (HttpsVariant.DockerImageDeploymentStack "MenbeeSchedulerStack" cliProps)
    "Ec2SecurityGroup" anyIpv4 22 = true
  ∧ admits (HttpVariant.DockerImageDeploymentStack "MenbeeSchedulerStack" cliProps)
      "Ec2SecurityGroup" anyIpv4 22 = true
  ∧ ¬ publicOn80Or443Only
        (HttpsVariant.DockerImageDeploymentStack "MenbeeSchedulerStack" cliProps)
  ∧ ¬ publicOn80Or443Only
        (HttpVariant.DockerImageDeploymentStack "MenbeeSchedulerStack" cliProps).
Proof.
  assert (admits (HttpsVariant.DockerImageDeploymentStack
                    "MenbeeSchedulerStack" cliProps)
            "Ec2SecurityGroup" anyIpv4 22 = true) as Hs.
  { unfold admits. rewrite Https_ingressRules. reflexivity. }
  assert (admits (HttpVariant.DockerImageDeploymentStack
                    "MenbeeSchedulerStack" cliProps)
            "Ec2SecurityGroup" anyIpv4 22 = true) as Hp.
  { unfold admits. rewrite Http_ingressRules. reflexivity. }
  split; [exact Hs|]. split; [exact Hp|]. split.
  - intros H. destruct (H _ _ Hs); lia.
  - intros H. destruct (H _ _ Hp); lia.
Qed.

(** C6, amended — At the load balancer the topology admits inbound public
    traffic on port 80 or 443 only: the HTTPS file has listeners on 443
    and 80 and the security group of its load balancer admits every IPv4
    address on 443 and on 80, the HTTP-only file has one listener on 80
    and its group admits every IPv4 address on 80.  Besides, the security
    group of the compute hosts admits every IPv4 address on TCP 22, in
    both files; no security group admits every IPv4 address on any other
    port.  The load balancer is internet-facing and forwards to the
    service, whose one container maps container port 3000 to host port 0
    (dynamic assignment) in bridge mode, and the hosts' security group has
    a rule that opens TCP 32768-65535, exactly that range, to the load
    balancer's security group. *)
Theorem network_boundary (id : string) (props : DockerImageDeploymentStackProps) :
  (∀ sg p,
     admits (HttpsVariant.DockerImageDeploymentStack id props) sg anyIpv4 p = true
     ↔ (sg = "AlbSecurityGroup" ∧ (p = 443 ∨ p = 80)%Z)
       ∨ (sg = "Ec2SecurityGroup" ∧ p = 22%Z))
  ∧ (∀ sg p,
       admits (HttpVariant.DockerImageDeploymentStack id props) sg anyIpv4 p = true
       ↔ (sg = "AlbSecurityGroup" ∧ p = 80%Z)
         ∨ (sg = "Ec2SecurityGroup" ∧ p = 22%Z))
  ∧ (λ l, listenerPort l.2)
      <$> listeners (HttpsVariant.DockerImageDeploymentStack id props)
    = [443%Z; 80%Z]
  ∧ (λ l, listenerPort l.2)
      <$> listeners (HttpVariant.DockerImageDeploymentStack id props)
    = [80%Z]
  ∧ Forall
      (λ s,
         constructs s !! "alb"
         = Some (ApplicationLoadBalancer
                   {| internetFacing := true; loadBalancerName := "nextjs-alb";
                      albSecurityGroup := "AlbSecurityGroup" |})
         ∧ (λ t, targets t.2) <$> targetGroups s = [["Ec2Service"]]
         ∧ constructs s !! "Ec2Service"
           = Some (Ec2Service
                     {| serviceName := "nextjs-service";
                        serviceTaskDefinition := "TaskDef";
                        desiredCount := 1; enableExecuteCommand := true |})
         ∧ taskDefinitions s = [("TaskDef", BRIDGE)]
         ∧ portMappings <$> containerDefinitions s
           = [[ {| containerPort := 3000; hostPort := 0; protocol := TCP |} ]]
         ∧ ("Ec2SecurityGroup",
            {| peer := securityGroupPeer "AlbSecurityGroup";
               connection := tcpRange 32768 65535;
               description := "Allow traffic from ALB to dynamic ports" |})
           ∈ ingressRules s
         ∧ (∀ p, (32768 ≤ p ≤ 65535)%Z →
                 admits s "Ec2SecurityGroup" (securityGroupPeer "AlbSecurityGroup") p
                 = true))
      [ HttpsVariant.DockerImageDeploymentStack id props;
        HttpVariant.DockerImageDeploymentStack id props ].
Proof.
  split; [intros sg p; admits_cases|].
  split; [intros sg p; admits_cases|].
  split; [by rewrite Https_listeners|].
  split; [by rewrite Http_listeners|].
  apply Forall_cons. split; [|apply Forall_cons; split; [|by apply Forall_nil]].
  - split; [apply Https_loadBalancer|].
    split; [by rewrite Https_stack_targetGroups|].
    split; [apply Https_service|].
    split; [apply Https_taskDefinitions|].
    split; [by rewrite Https_containerDefinitions|].
    split; [rewrite Https_ingressRules; unfold hostRules; set_solver|].
    intros p Hp. admits_cases.
  - split; [apply Http_loadBalancer|].
    split; [by rewrite Http_stack_targetGroups|].
    split; [apply Http_service|].
    split; [apply Http_taskDefinitions|].
    split; [by rewrite Http_containerDefinitions|].
    split; [rewrite Http_ingressRules; unfold hostRules; set_solver|].
    intros p Hp. admits_cases.
Qed.

(** ** Secrets *)

(** C7, as stated, fails: the container of the HTTP-only stack has no
    secret-backed variable at all. *)
Lemma http_only_container_has_no_secret :
  ∃ c, containerDefinitions
         (HttpVariant.DockerImageDeploymentStack "MenbeeSchedulerStack" cliProps)
       = [c]
       ∧ size (secrets c) = 0%nat
       ∧ size (secrets c) ≠ 6%nat.
Proof.
  exists (HttpVariant.NextjsContainer "NextjsEcrRepo" "LogGroup").
  split; [apply Http_containerDefinitions|]. split; [reflexivity | done].
Qed.

(** C7, amended — In the stack that declares secrets (the HTTPS variant)
    the container receives exactly six secret-backed variables, AUTH_SECRET,
    NEXTAUTH_URL, AUTH_GOOGLE_ID, AUTH_GOOGLE_SECRET, DATABASE_URL and
    AUTH_TRUST_HOST; each is a reference, by its own key name, into the
    secret named nextjs-app/env, and none of the keys is among the plain
    variables.  The HTTP-only variant declares no secret-backed variable.
    A reference holds the name of the secret and the name of the key and
    nothing else. *)
Theorem secret_backed_variables (id : string) (props : DockerImageDeploymentStackProps) :
  (∃ c, containerDefinitions (HttpsVariant.DockerImageDeploymentStack id props) = [c]
        ∧ dom (secrets c) = secretKeys
        ∧ size (secrets c) = 6%nat
        ∧ map_Forall
            (λ key ref, ref = {| secretOf := {| secretName := "nextjs-app/env" |};
                                 field := key |})
            (secrets c)
        ∧ dom (secrets c) ## dom (environment c)
        ∧ constructs (HttpsVariant.DockerImageDeploymentStack id props) !! "AppSecrets"
          = Some (SecretByName {| secretName := "nextjs-app/env" |}))
  ∧ (∃ c, containerDefinitions (HttpVariant.DockerImageDeploymentStack id props) = [c]
          ∧ secrets c = ∅).
Proof.
  split.
  - exists (HttpsVariant.NextjsContainer "NextjsEcrRepo" "LogGroup"
              {| secretName := "nextjs-app/env" |}).
    split; [apply Https_containerDefinitions|].
    split.
    { cbn [secrets HttpsVariant.NextjsContainer]. unfold secretKeys.
      rewrite !dom_insert_L, dom_singleton_L. set_solver. }
    split; [vm_compute; reflexivity|].
    split; [|split].
    + apply map_Forall_to_list. vm_compute. repeat constructor.
    + apply elem_of_disjoint. intros k Hs He.
      apply elem_of_dom in Hs as [ref Hs]. apply elem_of_dom in He as [v He].
      apply elem_of_map_to_list in Hs. apply elem_of_map_to_list in He.
      revert Hs He. vm_compute. intros Hs He.
      repeat (apply elem_of_cons in Hs as [Hs|Hs];
              [injection Hs as -> _;
               repeat (apply elem_of_cons in He as [He|He]; [discriminate He|]);
               by apply elem_of_nil in He|]).
      by apply elem_of_nil in Hs.
    + vm_compute. reflexivity.
  - exists (HttpVariant.NextjsContainer "NextjsEcrRepo" "LogGroup").
    split; [apply Http_containerDefinitions | reflexivity].
Qed.

(** ** SSH on the compute hosts *)

(** C8 — Whatever the stack is constructed with, the security group of
    the compute hosts admits TCP port 22 from every IPv4 address (rule
    "Allow SSH access"), the auto scaling group runs its instances with
    that security group and with the bootstrap commands of [userData], and
    those commands set the hard-coded password your-password-here for
    ec2-user, switch [PasswordAuthentication] to yes in the SSH daemon's
    configuration and restart the daemon.  Port 22 is neither 80 nor 443. *)
Theorem ssh_open_with_password (id : string) (props : DockerImageDeploymentStackProps) :
  Forall
    (λ s,
       ("Ec2SecurityGroup", sshRule) ∈ ingressRules s
       ∧ admits s "Ec2SecurityGroup" anyIpv4 22 = true
       ∧ constructs s !! "ASG"
         = Some (AutoScalingGroup
                   {| userData := userDataCommands;
                      minCapacity := 1; maxCapacity := 1; desiredCapacity := 1;
                      securityGroup := "Ec2SecurityGroup" |}))
    [ HttpsVariant.DockerImageDeploymentStack id props;
      HttpVariant.DockerImageDeploymentStack id props ]
  ∧ peer sshRule = anyIpv4
  ∧ connection sshRule = tcp 22
  ∧ (22 ≠ 80 ∧ 22 ≠ 443)%Z
  ∧ take 3 userDataCommands
    = [ "echo " +:+ dq +:+ "ec2-user:your-password-here" +:+ dq +:+ " | chpasswd";
        "sed -i " +:+ dq +:+
          "s/PasswordAuthentication no/PasswordAuthentication yes/g" +:+ dq +:+
          " /etc/ssh/sshd_config";
        "systemctl restart sshd" ].
Proof.
  split; [|by repeat split].
  apply Forall_cons. split; [|apply Forall_cons; split; [|by apply Forall_nil]].
  - split; [|split].
    + rewrite Https_ingressRules. unfold hostRules. set_solver.
    + unfold admits. rewrite Https_ingressRules. reflexivity.
    + apply Https_autoScalingGroup.
  - split; [|split].
    + rewrite Http_ingressRules. unfold hostRules. set_solver.
    + unfold admits. rewrite Http_ingressRules. reflexivity.
    + apply Http_autoScalingGroup.
Qed.

(** ** The container-level probe *)

Section ContainerLevel.

Import ContainerProbe.

(** C9 — The container-level health check of either stack is the one
    block whose command is [CMD-SHELL] with the constant line [exit 0].
    Whatever the state of the application, and whatever other commands
    would return, a probe with it succeeds, so over any sequence of
    application states no probe fails and the count of failures never
    reaches the block's 3 retries.  The only other health check of the
    stack is the target group's HTTP probe of path "/". *)
Theorem container_probe_always_succeeds
    (id : string) (props : DockerImageDeploymentStackProps)
    (AppState : Type) (execute : AppState → list string → Z) :
  Forall
    (λ s, ∃ hc probe,
       containerHealthChecks s = [hc]
       ∧ command hc = ["CMD-SHELL"; "exit 0"]
       ∧ retries hc = 3%Z
       ∧ (∀ app : AppState, succeeds AppState execute hc app = true)
       ∧ (∀ apps : list AppState, failedProbes AppState execute hc apps = 0%nat)
       ∧ targetGroupHealthChecks s = [probe]
       ∧ healthCheckProtocol probe = HTTP
       ∧ path probe = "/")
    [ HttpsVariant.DockerImageDeploymentStack id props;
      HttpVariant.DockerImageDeploymentStack id props ].
Proof.
  assert (∀ app : AppState,
            succeeds AppState execute NextjsContainerHealthCheck app = true)
    as Hok by (intros app; reflexivity).
  assert (∀ apps : list AppState,
            failedProbes AppState execute NextjsContainerHealthCheck apps = 0%nat)
    as Hnone.
  { intros apps. unfold failedProbes.
    induction apps as [|app rest IH]; [done|].
    rewrite filter_cons_False; [done|]. by rewrite Hok. }
  apply Forall_cons. split; [|apply Forall_cons; split; [|by apply Forall_nil]].
  all: cbv beta; exists NextjsContainerHealthCheck, EcsTargetGroupHealthCheck.
  all: rewrite ?Https_containerHealthChecks, ?Http_containerHealthChecks,
         ?Https_stack_healthChecks, ?Http_stack_healthChecks.
  all: repeat (split; [done|]); done.
Qed.

End ContainerLevel.

(** ** The CLI entry point *)

(** C10 — The script instantiates exactly one stack, with id
    MenbeeSchedulerStack and domain name menbee-scheduler.com.  Its region
    is ap-northeast-1 when CDK_DEFAULT_REGION is unset or empty and the
    value of the variable, unchanged, otherwise; its account is
    CDK_DEFAULT_ACCOUNT as the environment has it.  Either stack class
    keeps the id and the props it is given. *)
Theorem cli_instantiates_one_stack
    (DockerImageDeploymentStack : string → DockerImageDeploymentStackProps → Stack)
    (processEnv : gmap string string) :
  ∃ props,
    Bin.stacks (Bin.cdk DockerImageDeploymentStack processEnv)
    = [DockerImageDeploymentStack "MenbeeSchedulerStack" props]
    ∧ domainName props = "menbee-scheduler.com"
    ∧ account (env props) = processEnv !! "CDK_DEFAULT_ACCOUNT"
    ∧ (processEnv !! "CDK_DEFAULT_REGION" = None →
       region (env props) = Some "ap-northeast-1")
    ∧ (processEnv !! "CDK_DEFAULT_REGION" = Some "" →
       region (env props) = Some "ap-northeast-1")
    ∧ (∀ r, processEnv !! "CDK_DEFAULT_REGION" = Some r → r ≠ "" →
            region (env props) = Some r)
    ∧ stackId (HttpsVariant.DockerImageDeploymentStack "MenbeeSchedulerStack" props)
      = "MenbeeSchedulerStack"
    ∧ stackProps (HttpsVariant.DockerImageDeploymentStack "MenbeeSchedulerStack" props)
      = props
    ∧ stackId (HttpVariant.DockerImageDeploymentStack "MenbeeSchedulerStack" props)
      = "MenbeeSchedulerStack"
    ∧ stackProps (HttpVariant.DockerImageDeploymentStack "MenbeeSchedulerStack" props)
      = props.
Proof.
  eexists. split; [reflexivity|]. cbn [domainName env account region].
  split; [reflexivity|]. split; [reflexivity|].
  split; [|split; [|split]].
  - by intros ->.
  - by intros ->.
  - intros r -> Hr. unfold Bin.logicalOr. by rewrite decide_False.
  - split; [|split; [|split]]; vm_compute; reflexivity.
Qed.

(** * Further properties of the three files *)

(** ** The CLI entry point and its environment *)

(** X1 — Whatever the environment holds, the stack the script instantiates
    is given a region that is neither undefined nor empty: it is
    ap-northeast-1, or the non-empty value of CDK_DEFAULT_REGION. *)
Theorem cli_region_is_never_empty
    (DockerImageDeploymentStack : string → DockerImageDeploymentStackProps → Stack)
    (processEnv : gmap string string) :
  ∃ props r,
    Bin.stacks (Bin.cdk DockerImageDeploymentStack processEnv)
    = [DockerImageDeploymentStack "MenbeeSchedulerStack" props]
    ∧ region (env props) = Some r
    ∧ r ≠ ""
    ∧ (r = "ap-northeast-1" ∨ processEnv !! "CDK_DEFAULT_REGION" = Some r).
Proof.
  eexists. eexists. split; [reflexivity|]. cbn [env region].
  split; [reflexivity|]. unfold Bin.logicalOr.
  destruct (processEnv !! "CDK_DEFAULT_REGION") as [r|]; [|split; [done | by left]].
  destruct (decide (r = "")) as [->|Hr]; [split; [done | by left]|].
  split; [done | by right].
Qed.

Lemma Https_stackProps (id : string) (props : DockerImageDeploymentStackProps) :
  stackProps (HttpsVariant.DockerImageDeploymentStack id props) = props.
Proof. vm_compute. reflexivity. Qed.

Lemma Http_stackProps (id : string) (props : DockerImageDeploymentStackProps) :
  stackProps (HttpVariant.DockerImageDeploymentStack id props) = props.
Proof. vm_compute. reflexivity. Qed.

(** Two apps of one stack each, of a class that keeps its props, are equal
    only if the props are. *)
Lemma app_props
    (mk : string → DockerImageDeploymentStackProps → Stack)
    (id : string) (p1 p2 : DockerImageDeploymentStackProps) :
  (∀ i p, stackProps (mk i p) = p) →
  {| Bin.stacks := [mk id p1] |} = {| Bin.stacks := [mk id p2] |} → p1 = p2.
Proof.
  intros Hmk H.
  pose proof (f_equal (λ a, match Bin.stacks a with
                            | s :: _ => Some (stackProps s)
                            | [] => None
                            end) H) as H'.
  cbv beta iota delta [Bin.stacks] in H'.
  rewrite !Hmk in H'. by injection H'.
Qed.

(** X3 — An empty CDK_DEFAULT_REGION, and one set to ap-northeast-1, give
    the app that an unset CDK_DEFAULT_REGION gives, and with either stack
    class no other value does. *)
Theorem cli_default_region_is_the_unset_one
    (DockerImageDeploymentStack : string → DockerImageDeploymentStackProps → Stack)
    (processEnv : gmap string string) (r : string) :
  Bin.cdk DockerImageDeploymentStack (<["CDK_DEFAULT_REGION" := ""]> processEnv)
  = Bin.cdk DockerImageDeploymentStack (delete "CDK_DEFAULT_REGION" processEnv)
  ∧ Bin.cdk DockerImageDeploymentStack
      (<["CDK_DEFAULT_REGION" := "ap-northeast-1"]> processEnv)
    = Bin.cdk DockerImageDeploymentStack (delete "CDK_DEFAULT_REGION" processEnv)
  ∧ (Bin.cdk HttpsVariant.DockerImageDeploymentStack
       (<["CDK_DEFAULT_REGION" := r]> processEnv)
     = Bin.cdk HttpsVariant.DockerImageDeploymentStack
         (delete "CDK_DEFAULT_REGION" processEnv)
     ↔ r = "" ∨ r = "ap-northeast-1")
  ∧ (Bin.cdk HttpVariant.DockerImageDeploymentStack
       (<["CDK_DEFAULT_REGION" := r]> processEnv)
     = Bin.cdk HttpVariant.DockerImageDeploymentStack
         (delete "CDK_DEFAULT_REGION" processEnv)
     ↔ r = "" ∨ r = "ap-northeast-1").
Proof.
  unfold Bin.cdk.
  rewrite !lookup_insert_eq, lookup_delete_eq.
  rewrite !lookup_insert_ne, lookup_delete_ne by done.
  split; [done|]. split; [done|]. unfold Bin.logicalOr.
  split; (split; [|by intros [-> | ->]]).
  - intros H. destruct (decide (r = "")) as [->|Hr]; [by left|]. right.
    apply (app_props _ _ _ _ Https_stackProps) in H. by injection H.
  - intros H. destruct (decide (r = "")) as [->|Hr]; [by left|]. right.
    apply (app_props _ _ _ _ Http_stackProps) in H. by injection H.
Qed.

(** ** What the props reach *)

Lemma append_https_inj (a b : string) : "https://" +:+ a = "https://" +:+ b → a = b.
Proof. intros H. by injection H. Qed.


(** ** The whole ingress relation *)

(** X6 — The security groups of a stack admit what its rules say and
    nothing else, for every group, source and port: the service's group
    and the hosts' group admit the load balancer's group on 3000, the
    hosts' group also on 32768-65535, the hosts' group admits every IPv4
    address on 22, and the load balancer's group admits every IPv4 address
    on 443 and on 80 in the HTTPS stack (443 by the file's own rule, 80 by
    the rule its listener on port 80 adds, being open by default) and on
    80 in the HTTP-only stack.  There are six rules in the HTTPS stack and
    five in the HTTP-only one: a listener's rule for a port that the file
    opens itself is not added again.  So no group admits the service's or
    the hosts' group as a source, and the load balancer's group admits no
    other group. *)
Theorem ingress_is_what_the_rules_say
    (id : string) (props : DockerImageDeploymentStackProps)
    (sg : string) (source : Peer) (p : Z) :
  (admits (HttpsVariant.DockerImageDeploymentStack id props) sg source p = true
   ↔ (sg = "ServiceSecurityGroup" ∧ source = securityGroupPeer "AlbSecurityGroup"
      ∧ p = 3000%Z)
     ∨ (sg = "Ec2SecurityGroup" ∧ source = anyIpv4 ∧ p = 22%Z)
     ∨ (sg = "Ec2SecurityGroup" ∧ source = securityGroupPeer "AlbSecurityGroup"
        ∧ (p = 3000 ∨ 32768 ≤ p ≤ 65535)%Z)
     ∨ (sg = "AlbSecurityGroup" ∧ source = anyIpv4 ∧ (p = 443 ∨ p = 80)%Z))
  ∧ (admits (HttpVariant.DockerImageDeploymentStack id props) sg source p = true
     ↔ (sg = "ServiceSecurityGroup" ∧ source = securityGroupPeer "AlbSecurityGroup"
        ∧ p = 3000%Z)
       ∨ (sg = "Ec2SecurityGroup" ∧ source = anyIpv4 ∧ p = 22%Z)
       ∨ (sg = "Ec2SecurityGroup" ∧ source = securityGroupPeer "AlbSecurityGroup"
          ∧ (p = 3000 ∨ 32768 ≤ p ≤ 65535)%Z)
       ∨ (sg = "AlbSecurityGroup" ∧ source = anyIpv4 ∧ p = 80%Z))
  ∧ length (ingressRules (HttpsVariant.DockerImageDeploymentStack id props)) = 6%nat
  ∧ length (ingressRules (HttpVariant.DockerImageDeploymentStack id props)) = 5%nat.
Proof.
  split; [admits_cases|]. split; [admits_cases|].
  by rewrite Https_ingressRules, Http_ingressRules.
Qed.

(** ** The application's port *)

(** X7 — The port the application is told to listen on is the port
    traffic is sent to: in either stack the one container's variable PORT
    reads, as a decimal number, the container port of its one port
    mapping, and that port is the only one on which the service's
    security group admits the load balancer, and one on which the hosts'
    group admits it. *)
Theorem application_port_is_wired_through
    (id : string) (props : DockerImageDeploymentStackProps) :
  Forall
    (λ s, ∃ c m port,
       containerDefinitions s = [c]
       ∧ portMappings c = [m]
       ∧ environment c !! "PORT" = Some port
       ∧ ContainerProbe.digits port 0 = Some (containerPort m)
       ∧ (∀ p, admits s "ServiceSecurityGroup"
                 (securityGroupPeer "AlbSecurityGroup") p = true
               ↔ p = containerPort m)
       ∧ admits s "Ec2SecurityGroup" (securityGroupPeer "AlbSecurityGroup")
           (containerPort m) = true)
    [ HttpsVariant.DockerImageDeploymentStack id props;
      HttpVariant.DockerImageDeploymentStack id props ].
Proof.
  apply Forall_cons. split; [|apply Forall_cons; split; [|by apply Forall_nil]].
  - exists (HttpsVariant.NextjsContainer "NextjsEcrRepo" "LogGroup"
              {| secretName := "nextjs-app/env" |}),
      {| containerPort := 3000; hostPort := 0; protocol := TCP |}, "3000".
    split; [apply Https_containerDefinitions|].
    split; [reflexivity|]. split; [vm_compute; reflexivity|].
    split; [reflexivity|]. cbn [containerPort].
    split; [intros p; admits_cases|].
    unfold admits. rewrite Https_ingressRules. reflexivity.
  - exists (HttpVariant.NextjsContainer "NextjsEcrRepo" "LogGroup"),
      {| containerPort := 3000; hostPort := 0; protocol := TCP |}, "3000".
    split; [apply Http_containerDefinitions|].
    split; [reflexivity|]. split; [vm_compute; reflexivity|].
    split; [reflexivity|]. cbn [containerPort].
    split; [intros p; admits_cases|].
    unfold admits. rewrite Http_ingressRules. reflexivity.
Qed.

(** ** Listeners *)

(** X10 — Every listener of a stack does one thing: it carries one target
    group and no default action, or a redirect and no target group.  The
    one redirect (port 80 of the HTTPS stack) names the protocol HTTPS and,
    as a decimal string, the port of a listener of the same stack that
    speaks HTTPS with a certificate issued for the domain name of the
    props, on a port the load balancer's security group admits from every
    address.  The HTTP-only stack has neither a redirect nor a
    certificate on a listener. *)
Theorem every_listener_forwards_or_redirects
    (id : string) (props : DockerImageDeploymentStackProps) :
  Forall
    (λ s,
       Forall (λ l, (defaultAction l.2 = None ∧ length (targetGroupsOf s l.1) = 1%nat)
                    ∨ (is_Some (defaultAction l.2) ∧ targetGroupsOf s l.1 = []))
         (listeners s))
    [ HttpsVariant.DockerImageDeploymentStack id props;
      HttpVariant.DockerImageDeploymentStack id props ]
  ∧ Forall
      (λ l, ∀ r, defaultAction l.2 = Some r →
         redirectProtocol r = "HTTPS"
         ∧ ∃ l', l' ∈ listeners (HttpsVariant.DockerImageDeploymentStack id props)
                 ∧ ContainerProbe.digits (redirectPort r) 0 = Some (listenerPort l'.2)
                 ∧ listenerProtocol l'.2 = Some HTTPS
                 ∧ certificates l'.2 ≠ []
                 ∧ Forall (λ c, constructs
                                  (HttpsVariant.DockerImageDeploymentStack id props)
                                  !! c
                                = Some (Certificate (domainName props)))
                     (certificates l'.2)
                 ∧ admits (HttpsVariant.DockerImageDeploymentStack id props)
                     "AlbSecurityGroup" anyIpv4 (listenerPort l'.2) = true)
      (listeners (HttpsVariant.DockerImageDeploymentStack id props))
  ∧ Forall (λ l, defaultAction l.2 = None ∧ certificates l.2 = [])
      (listeners (HttpVariant.DockerImageDeploymentStack id props)).
Proof.
  split; [|split].
  - apply Forall_cons. split; [|apply Forall_cons; split; [|by apply Forall_nil]].
    + unfold targetGroupsOf.
      rewrite Https_listeners, Https_stack_targetGroups.
      apply Forall_cons. split; [left; by split|].
      apply Forall_cons. split; [right; by split|]. by apply Forall_nil.
    + unfold targetGroupsOf.
      rewrite Http_listeners, Http_stack_targetGroups.
      apply Forall_cons. split; [left; by split|]. by apply Forall_nil.
  - rewrite Https_listeners.
    apply Forall_cons. split; [intros r Hr; discriminate Hr|].
    apply Forall_cons. split; [|by apply Forall_nil].
    intros r Hr. injection Hr as <-. split; [reflexivity|].
    exists ("HttpsListener",
            {| listenerPort := 443; listenerProtocol := Some HTTPS;
               certificates := ["SslCertificate"]; listenerOpen := None;
               defaultAction := None |}).
    split; [set_solver|]. split; [reflexivity|]. split; [reflexivity|].
    split; [done|]. split.
    + apply Forall_cons. split; [vm_compute; reflexivity | by apply Forall_nil].
    + unfold admits. rewrite Https_ingressRules. reflexivity.
  - rewrite Http_listeners. by repeat constructor.
Qed.
